(** * Header propagation and authorization gating in the coffee-shop flows

    A shallow embedding of [go/samples/headers/main.go]: the context
    carrier ([WithHeaders], [GetHeaders]), the bearer-prefix gate that
    each flow applies, the three flows and the HTTP handler of
    [POST /testAllCoffeeFlows].

    Go strings are byte sequences and are modelled by [string]; a Go map
    is a [gmap], and a nil map or slice is [None].  Calls that leave the
    program (the prompt execution, encoding/json on opaque values) are
    fields of the class [External]; log lines and external calls are
    recorded in a trace, so that a statement such as
    [the prompt is never executed] can be made. *)

From Stdlib Require Import String Ascii ZArith List Bool Lia.
From stdpp Require Import base option gmap strings list.

Local Open Scope string_scope.
Local Open Scope Z_scope.

(** ** Go strings *)

(** [strings.HasPrefix]:
    [len(s) >= len(prefix) && s[:len(prefix)] == prefix]. *)
Definition HasPrefix (s prefix : string) : bool :=
  Nat.leb (String.length prefix) (String.length s)
  && String.eqb (substring 0 (String.length prefix) s) prefix.

(** The double-quote byte, for the JSON texts below. *)
Definition dquote : string := String (ascii_of_nat 34) EmptyString.

Definition quoted (s : string) : string := dquote +:+ s +:+ dquote.

(** ** net/textproto: canonical header keys *)

Definition byteIn (lo hi : nat) (c : ascii) : bool :=
  Nat.leb lo (nat_of_ascii c) && Nat.leb (nat_of_ascii c) hi.

Definition isLower (c : ascii) : bool := byteIn 97 122 c.
Definition isUpper (c : ascii) : bool := byteIn 65 90 c.

(** [validHeaderFieldByte]: the token bytes of RFC 7230. *)
Definition validHeaderFieldByte (c : ascii) : bool :=
  isLower c || isUpper c || byteIn 48 57 c
  || existsb (Nat.eqb (nat_of_ascii c))
       [33; 35; 36; 37; 38; 39; 42; 43; 45; 46; 94; 95; 96; 124; 126]%nat.

Fixpoint allValid (s : string) : bool :=
  match s with
  | EmptyString => true
  | String c rest => validHeaderFieldByte c && allValid rest
  end.

(** The canonicalising loop: upper case at the start and after each dash,
    lower case elsewhere. *)
Fixpoint canonLoop (upper : bool) (s : string) : string :=
  match s with
  | EmptyString => EmptyString
  | String c rest =>
      let c' :=
        if upper && isLower c then ascii_of_nat (nat_of_ascii c - 32)
        else if negb upper && isUpper c then ascii_of_nat (nat_of_ascii c + 32)
        else c in
      String c' (canonLoop (Ascii.eqb c' "-"%char) rest)
  end.

(** [textproto.CanonicalMIMEHeaderKey]: a key holding a byte that is not a
    token byte (a space included) is returned unchanged. *)
Definition CanonicalMIMEHeaderKey (s : string) : string :=
  if allValid s then canonLoop true s else s.

(** ** http.Header *)

(** [http.Header] is [map[string][]string]; [None] is the nil map. *)
Abbreviation HeaderMap := (gmap string (list string)).
Abbreviation Header := (option (gmap string (list string))).

(** [Header.Get]: the first value under the canonical key, the empty
    string when the map is nil or the key has no value. *)
Definition Get (h : Header) (key : string) : string :=
  match h with
  | None => ""
  | Some m =>
      match m !! CanonicalMIMEHeaderKey key with
      | Some (v :: _) => v
      | _ => ""
      end
  end.

Definition isNil {A} (o : option A) : bool :=
  match o with None => true | Some _ => false end.

(** ** context.Context *)

(** Keys under which this program and net/http store values.  Key types
    are distinct Go types, so keys of different constructors never
    compare equal. *)
Inductive Key :=
| HeaderContextKey
| ServerContextKey
| LocalAddrContextKey
| OtherKey (name : string).

#[global] Instance Key_eq_dec : EqDecision Key.
Proof. solve_decision. Defined.

(** The dynamic value held by a context entry. *)
Inductive Value :=
| VHeader (headers : Header)   (* dynamic type http.Header, nil map included *)
| VNil                         (* the nil interface *)
| VOther (tag : string).       (* a value of any other dynamic type *)

(** The context chain: [context.Background()], a [valueCtx] made by
    [context.WithValue], and a [cancelCtx], which holds no entry a [Key]
    can name. *)
Inductive Context :=
| Background
| valueCtx (parent : Context) (key : Key) (val : Value)
| cancelCtx (parent : Context).

(** [ctx.Value(key)]: the nearest entry wins; [None] is the nil interface
    of a key bound nowhere. *)
Fixpoint ctxValue (ctx : Context) (key : Key) : option Value :=
  match ctx with
  | Background => None
  | valueCtx parent k v =>
      if decide (k = key) then Some v else ctxValue parent key
  | cancelCtx parent => ctxValue parent key
  end.

Definition WithValue (ctx : Context) (key : Key) (val : Value) : Context :=
  valueCtx ctx key val.

(** [WithHeaders] (line 37). *)
Definition WithHeaders (ctx : Context) (headers : Header) : Context :=
  WithValue ctx HeaderContextKey (VHeader headers).

(** [GetHeaders] (line 42): the type assertion to [http.Header] succeeds
    exactly on a [VHeader]. *)
Definition GetHeaders (ctx : Context) : Header :=
  match ctxValue ctx HeaderContextKey with
  | Some (VHeader headers) => headers
  | _ => None
  end.

(** A context some ancestor of which was made by [WithHeaders]. *)
Fixpoint attached (ctx : Context) : bool :=
  match ctx with
  | Background => false
  | valueCtx parent HeaderContextKey (VHeader _) => true
  | valueCtx parent _ _ => attached parent
  | cancelCtx parent => attached parent
  end.

(** ** The authorization gate *)

(** The condition of lines 119, 169 and 204:
    [headers != nil && !strings.HasPrefix(headers.Get("Authorization"), "Bearer ")]. *)
Definition authorizationRejected (headers : Header) : bool :=
  negb (isNil headers)
  && negb (HasPrefix (Get headers "Authorization") "Bearer ").

(** ** Records of the program *)

Record simpleGreetingInput := {
  sgCustomerName : string   (* CustomerName; the next record owns that name *)
}.

Record customerTimeAndHistoryInput := {
  CustomerName : string;
  CurrentTime : string;
  PreviousOrder : string
}.

(** [Replies] is a slice: [None] is the nil slice of a record built
    without the field. [Error] is a plain string, empty when unset. *)
Record testAllCoffeeFlowsOutput := {
  Pass : bool;
  Replies : option (list string);
  Error : string
}.

(** A Go result pair [(value, error)]: the error is carried by the text
    that [err.Error()] gives. *)
Inductive Result (A : Type) :=
| Ok (a : A)
| Err (msg : string).
Arguments Ok {A} a.
Arguments Err {A} msg.

(** ** Observable events *)

Inductive Level := InfoLevel | ErrorLevel.

Inductive Event :=
| EvLog (lvl : Level) (fields : list (string * string)) (msg : string)
| EvPrintln (operands : list string)
| EvFlowRun (name : string)
| EvExecuteSimpleGreeting (input : option simpleGreetingInput) (streaming : bool)
| EvExecuteGreetingWithHistory (input : option customerTimeAndHistoryInput).

(** ** What lies outside the program *)

(** The generative model behind the two prompts, with a state of its own
    ([World]) so that two executions may answer differently, and the
    parts of encoding/json that work on opaque data.
    - [jsonString] is the JSON text of a Go string, quotes included;
    - [json_Marshal_Header] is [json.Marshal] on a header map;
    - [json_Decode body] is [json.NewDecoder(body).Decode(&input)] for
      [input] of type [struct{}]: [None] when it returns nil, the text of
      the error otherwise. *)
Class External := {
  World : Type;
  Chunk : Type;
  chunkText : Chunk -> string;
  jsonString : string -> string;
  json_Marshal_Header : Header -> string;
  json_Decode : string -> option string;
  simpleGreetingPrompt_Execute :
    Context -> option simpleGreetingInput ->
    option (Context -> Chunk -> option string) ->
    World -> Result string * World;
  greetingWithHistoryPrompt_Execute :
    Context -> option customerTimeAndHistoryInput ->
    World -> Result string * World
}.

(** ** The state monad of the program *)

Record State `{External} := {
  trace : list Event;
  world : World
}.

Definition M `{External} (A : Type) : Type := State -> A * State.

Definition ret `{External} {A} (a : A) : M A := fun st => (a, st).

Definition bind `{External} {A B} (m : M A) (k : A -> M B) : M B :=
  fun st => let (a, st') := m st in k a st'.

Notation "x <- m ;; k" := (bind m (fun x => k))
  (at level 100, m at next level, right associativity).
Notation "m ;;; k" := (bind m (fun _ => k))
  (at level 100, right associativity).

Definition emit `{External} (e : Event) : M unit :=
  fun st => (tt, {| trace := trace st ++ [e]; world := world st |}).

(** An external call: the event is recorded, then the world answers. *)
Definition external `{External} {A} (e : Event)
    (call : World -> A * World) : M A :=
  fun st =>
    let (a, w) := call (world st) in
    (a, {| trace := trace st ++ [e]; world := w |}).

(** The events a computation adds when run from [st]. *)
Definition added `{External} (st st' : State) : list Event :=
  drop (length (trace st)) (trace st').

(** ** encoding/json on the program's own records *)

Definition newline : string := String (ascii_of_nat 10) EmptyString.

(** [json.Marshal] on a pointer to a record of strings: [null] for the
    nil pointer, the object otherwise. It has no failing case on these
    types, so the result is always [Ok]; the flows keep their error
    branch as written. *)
Definition simpleGreetingInput_JSON `{External}
    (input : option simpleGreetingInput) : string :=
  match input with
  | None => "null"
  | Some i =>
      "{" +:+ quoted "customerName" +:+ ":" +:+ jsonString (sgCustomerName i) +:+ "}"
  end.

Definition json_Marshal_simpleGreetingInput `{External}
    (input : option simpleGreetingInput) : Result string :=
  Ok (simpleGreetingInput_JSON input).

Definition customerTimeAndHistoryInput_JSON `{External}
    (input : option customerTimeAndHistoryInput) : string :=
  match input with
  | None => "null"
  | Some i =>
      "{" +:+ quoted "customerName" +:+ ":" +:+ jsonString (CustomerName i)
      +:+ "," +:+ quoted "currentTime" +:+ ":" +:+ jsonString (CurrentTime i)
      +:+ "," +:+ quoted "previousOrder" +:+ ":" +:+ jsonString (PreviousOrder i)
      +:+ "}"
  end.

Definition json_Marshal_customerTimeAndHistoryInput `{External}
    (input : option customerTimeAndHistoryInput) : Result string :=
  Ok (customerTimeAndHistoryInput_JSON input).

(** [json.NewEncoder(w).Encode(output)]: the fields in declaration order,
    [replies] and [error] left out when empty ([omitempty]), and a
    newline at the end. *)
Definition json_Encode_output `{External} (o : testAllCoffeeFlowsOutput) : string :=
  "{" +:+ quoted "pass" +:+ ":" +:+ (if Pass o then "true" else "false")
  +:+ match Replies o with
      | Some ((_ :: _) as l) =>
          "," +:+ quoted "replies" +:+ ":[" +:+ String.concat "," (map jsonString l) +:+ "]"
      | _ => ""
      end
  +:+ (if String.eqb (Error o) "" then ""
       else "," +:+ quoted "error" +:+ ":" +:+ jsonString (Error o))
  +:+ "}" +:+ newline.

(** ** The flows *)

(** [Flow.Run] of the framework: the flow's function is called, in the
    caller's goroutine, on the context and input given. The event marks
    the invocation. *)
Definition Run `{External} {In Out : Type} (name : string)
    (fn : Context -> In -> M (Result Out))
    (ctx : Context) (input : In) : M (Result Out) :=
  emit (EvFlowRun name) ;;; fn ctx input.

(** The block [if headers != nil { log.Info()...Msg(...) }] that opens
    each flow. *)
Definition logReceived `{External} (headers : Header) (msg : string) : M unit :=
  if negb (isNil headers) then
    emit (EvLog InfoLevel
            [("authorization", Get headers "Authorization");
             ("x-request-id", Get headers "X-Request-ID")]
            msg)
  else ret tt.

(** Lines 131-136: the callback handed to the prompt is nil when [cb] is
    nil, and otherwise passes on the text of each chunk. *)
Definition streamingCallback `{External}
    (cb : option (Context -> string -> option string))
    : option (Context -> Chunk -> option string) :=
  match cb with
  | Some cb => Some (fun ctx c => cb ctx (chunkText c))
  | None => None
  end.

(** [simpleGreetingFlow] (lines 108-145). [cb] is the streaming callback,
    [None] when nil. *)
Definition simpleGreetingFlow `{External} (ctx : Context)
    (input : option simpleGreetingInput)
    (cb : option (Context -> string -> option string)) : M (Result string) :=
  let headers := GetHeaders ctx in
  logReceived headers "Received HTTP headers in simpleGreeting" ;;;
  if authorizationRejected headers then
    ret (Err "invalid authorization header")
  else
    match json_Marshal_simpleGreetingInput input with
    | Err err => ret (Err ("json.Marshal: " +:+ err))
    | Ok inputJSON =>
        emit (EvLog InfoLevel [] ("input--------" +:+ inputJSON)) ;;;
        let callback := streamingCallback cb in
        resp <- external (EvExecuteSimpleGreeting input (negb (isNil cb)))
                  (simpleGreetingPrompt_Execute ctx input callback) ;;
        match resp with
        | Err err => ret (Err err)
        | Ok text => ret (Ok text)
        end
    end.

(** [greetingWithHistoryFlow] (lines 158-188). *)
Definition greetingWithHistoryFlow `{External} (ctx : Context)
    (input : option customerTimeAndHistoryInput) : M (Result string) :=
  let headers := GetHeaders ctx in
  logReceived headers "Received HTTP headers in greetingWithHistory" ;;;
  if authorizationRejected headers then
    ret (Err "invalid authorization header")
  else
    match json_Marshal_customerTimeAndHistoryInput input with
    | Err err => ret (Err ("json.Marshal: " +:+ err))
    | Ok inputJSON =>
        emit (EvLog InfoLevel [] ("input--------" +:+ inputJSON)) ;;;
        resp <- external (EvExecuteGreetingWithHistory input)
                  (greetingWithHistoryPrompt_Execute ctx input) ;;
        match resp with
        | Err err => ret (Err err)
        | Ok text => ret (Ok text)
        end
    end.

Definition samInput : simpleGreetingInput := {| sgCustomerName := "Sam" |}.

Definition samHistoryInput : customerTimeAndHistoryInput :=
  {| CustomerName := "Sam";
     CurrentTime := "09:45am";
     PreviousOrder := "Caramel Macchiato" |}.

Definition unauthorizedOutput : testAllCoffeeFlowsOutput :=
  {| Pass := false; Replies := None; Error := "invalid authorization header" |}.

(** [coffeeFlow], registered as testAllCoffeeFlows (lines 191-246). Its
    input has type [struct{}]. The streaming flow is run through [Run],
    which passes no callback. *)
Definition coffeeFlow `{External} (ctx : Context) (_ : unit)
    : M (Result testAllCoffeeFlowsOutput) :=
  let headers := GetHeaders ctx in
  logReceived headers "Received HTTP headers in testAllCoffeeFlows" ;;;
  if authorizationRejected headers then
    ret (Ok unauthorizedOutput)
  else
    emit (EvPrintln ["headers-------------   "; json_Marshal_Header headers]) ;;;
    r1 <- Run "simpleGreeting" (fun c i => simpleGreetingFlow c i None)
            ctx (Some samInput) ;;
    match r1 with
    | Err err => ret (Ok {| Pass := false; Replies := None; Error := err |})
    | Ok test1 =>
        r2 <- Run "greetingWithHistory" greetingWithHistoryFlow
                ctx (Some samHistoryInput) ;;
        match r2 with
        | Err err => ret (Ok {| Pass := false; Replies := None; Error := err |})
        | Ok test2 =>
            ret (Ok {| Pass := true; Replies := Some [test1; test2]; Error := "" |})
        end
    end.

(** ** The HTTP endpoint *)

Record Request := {
  Method : string;
  ContentLength : Z;       (* -1 when the length is unknown *)
  Body : string;
  RHeader : Header;
  RContext : Context
}.

(** What the handler did to its [http.ResponseWriter]. Writes to the
    connection are taken to succeed. *)
Record ResponseWriter := {
  wHeader : gmap string (list string);
  wStatus : option Z;
  wBody : string
}.

Definition freshWriter : ResponseWriter :=
  {| wHeader := ∅; wStatus := None; wBody := "" |}.

Definition SetHeader (w : ResponseWriter) (key value : string) : ResponseWriter :=
  {| wHeader := <[CanonicalMIMEHeaderKey key := [value]]> (wHeader w);
     wStatus := wStatus w; wBody := wBody w |}.

Definition DelHeader (w : ResponseWriter) (key : string) : ResponseWriter :=
  {| wHeader := delete (CanonicalMIMEHeaderKey key) (wHeader w);
     wStatus := wStatus w; wBody := wBody w |}.

(** [WriteHeader]: the first status written stands. *)
Definition WriteHeader (w : ResponseWriter) (code : Z) : ResponseWriter :=
  {| wHeader := wHeader w;
     wStatus := match wStatus w with Some c => Some c | None => Some code end;
     wBody := wBody w |}.

(** [Write]: an implicit 200 when no status was written. *)
Definition Write (w : ResponseWriter) (data : string) : ResponseWriter :=
  {| wHeader := wHeader w;
     wStatus := match wStatus w with Some c => Some c | None => Some 200 end;
     wBody := wBody w +:+ data |}.

(** [http.Error]. *)
Definition http_Error (w : ResponseWriter) (error : string) (code : Z) : ResponseWriter :=
  let w := DelHeader w "Content-Length" in
  let w := SetHeader w "Content-Type" "text/plain; charset=utf-8" in
  let w := SetHeader w "X-Content-Type-Options" "nosniff" in
  let w := WriteHeader w code in
  Write w (error +:+ newline).

(** Lines 258-265: the body is decoded only when the declared length is
    positive. [None] when the handler goes on, the decoder's error when
    it answers 400. *)
Definition decodeBody `{External} (r : Request) : option string :=
  if 0 <? ContentLength r then json_Decode (Body r) else None.

(** The handler of [POST /testAllCoffeeFlows] (lines 250-291). *)
Definition handler `{External} (w : ResponseWriter) (r : Request) : M ResponseWriter :=
  if negb (String.eqb (Method r) "POST") then
    ret (http_Error w "Method not allowed" 405)
  else
    match decodeBody r with
    | Some err =>
        emit (EvLog ErrorLevel [("error", err)] "Failed to decode request body") ;;;
        ret (http_Error w "Invalid input" 400)
    | None =>
        let input := tt in
        emit (EvPrintln ["headers-------------   "; json_Marshal_Header (RHeader r)]) ;;;
        let ctx := WithHeaders (RContext r) (RHeader r) in
        res <- Run "testAllCoffeeFlows" coffeeFlow ctx input ;;
        match res with
        | Err err =>
            emit (EvLog ErrorLevel [("error", err)] "Flow execution failed") ;;;
            ret (http_Error w ("Flow error: " +:+ err) 500)
        | Ok output =>
            let w := SetHeader w "Content-Type" "application/json" in
            let w := WriteHeader w 200 in
            ret (Write w (json_Encode_output output))
        end
    end.

(** ** Reading a trace *)

(** The flows that the framework was asked to run, in order. *)
Fixpoint flowRuns (l : list Event) : list string :=
  match l with
  | [] => []
  | EvFlowRun name :: rest => name :: flowRuns rest
  | _ :: rest => flowRuns rest
  end.

(** The prompt executions, in order, each with the input it was given. *)
Inductive PromptCall :=
| CallSimpleGreeting (input : option simpleGreetingInput)
| CallGreetingWithHistory (input : option customerTimeAndHistoryInput).

Fixpoint promptCalls (l : list Event) : list PromptCall :=
  match l with
  | [] => []
  | EvExecuteSimpleGreeting input _ :: rest =>
      CallSimpleGreeting input :: promptCalls rest
  | EvExecuteGreetingWithHistory input :: rest =>
      CallGreetingWithHistory input :: promptCalls rest
  | _ :: rest => promptCalls rest
  end.

(** The events of one leaf run by the composite flow, up to and
    including the prompt execution, when the gate lets [ctx] through. *)
Definition receivedEvents (headers : Header) (msg : string) : list Event :=
  if negb (isNil headers) then
    [EvLog InfoLevel
       [("authorization", Get headers "Authorization");
        ("x-request-id", Get headers "X-Request-ID")]
       msg]
  else [].

Definition simpleGreetingLeg `{External} (ctx : Context) : list Event :=
  [EvFlowRun "simpleGreeting"]
  ++ receivedEvents (GetHeaders ctx) "Received HTTP headers in simpleGreeting"
  ++ [EvLog InfoLevel [] ("input--------" +:+ simpleGreetingInput_JSON (Some samInput));
      EvExecuteSimpleGreeting (Some samInput) false].

Definition greetingWithHistoryLeg `{External} (ctx : Context) : list Event :=
  [EvFlowRun "greetingWithHistory"]
  ++ receivedEvents (GetHeaders ctx) "Received HTTP headers in greetingWithHistory"
  ++ [EvLog InfoLevel []
        ("input--------" +:+ customerTimeAndHistoryInput_JSON (Some samHistoryInput));
      EvExecuteGreetingWithHistory (Some samHistoryInput)].

Definition coffeePreamble `{External} (ctx : Context) : list Event :=
  receivedEvents (GetHeaders ctx) "Received HTTP headers in testAllCoffeeFlows"
  ++ [EvPrintln ["headers-------------   "; json_Marshal_Header (GetHeaders ctx)]].

Definition extend `{External} (st : State) (events : list Event) (w : World) : State :=
  {| trace := trace st ++ events; world := w |}.

(** The two shapes of record that the composite flow builds after its
    gate. *)
Definition failed (err : string) : testAllCoffeeFlowsOutput :=
  {| Pass := false; Replies := None; Error := err |}.

Definition passed (test1 test2 : string) : testAllCoffeeFlowsOutput :=
  {| Pass := true; Replies := Some [test1; test2]; Error := "" |}.


(** ** Stand-ins for the outside world, for the closed examples *)

(** A decoder that takes the empty object and refuses any other body, as
    encoding/json does on the bodies used below. *)
Definition sampleDecode (body : string) : option string :=
  if String.eqb body "{}" then None
  else Some "invalid character 'i' looking for beginning of object key string".

(** A model that answers the first prompt with [r1] and the second with
    [r2], whatever it is asked. *)
Definition scripted (r1 r2 : Result string) : External :=
  {| World := unit;
     Chunk := string;
     chunkText := fun c => c;
     jsonString := quoted;
     json_Marshal_Header := fun h => if isNil h then "null" else "{...}";
     json_Decode := sampleDecode;
     simpleGreetingPrompt_Execute := fun _ _ _ w => (r1, w);
     greetingWithHistoryPrompt_Execute := fun _ _ w => (r2, w) |}.

Definition friendly : External :=
  scripted (Ok "Hi Sam, try a latte.") (Ok "Welcome back Sam, a mocha today?").

Definition startState (r1 r2 : Result string) : @State (scripted r1 r2) :=
  @Build_State (scripted r1 r2) [] tt.

(** The context net/http gives a handler: server entries below a
    cancellation node. *)
Definition serverContext : Context :=
  cancelCtx
    (valueCtx (valueCtx Background ServerContextKey (VOther "*http.Server"))
       LocalAddrContextKey (VOther "net.Addr")).

Definition bearerHeaders : HeaderMap := {[ "Authorization" := ["Bearer abc"] ]}.
Definition basicHeaders : HeaderMap := {[ "Authorization" := ["Basic xyz"] ]}.
Definition noAuthHeaders : HeaderMap := {[ "X-Request-Id" := ["42"] ]}.

Definition post (len : Z) (body : string) (h : Header) : Request :=
  {| Method := "POST"; ContentLength := len; Body := body;
     RHeader := h; RContext := serverContext |}.

(** ** Further readings of contexts and traces *)

(** A context obtained from [base] by further derivation that does not
    bind [HeaderContextKey] again: values under other keys and
    cancellation nodes, as the server and the framework add them. *)
Inductive derivedFrom (base : Context) : Context -> Prop :=
| derived_base : derivedFrom base base
| derived_value ctx key val :
    key <> HeaderContextKey ->
    derivedFrom base ctx ->
    derivedFrom base (WithValue ctx key val)
| derived_cancel ctx :
    derivedFrom base ctx ->
    derivedFrom base (cancelCtx ctx).

(** The values that log lines carry in their authorization field, in the
    order they were written. *)
Fixpoint loggedAuthorization (l : list Event) : list string :=
  match l with
  | [] => []
  | EvLog _ fields _ :: rest =>
      map snd (List.filter (fun kv => String.eqb (fst kv) "authorization") fields)
      ++ loggedAuthorization rest
  | _ :: rest => loggedAuthorization rest
  end.

(** The status the handler answers with, read off its three exits. *)
Definition expectedStatus `{External} (r : Request) : Z :=
  if negb (String.eqb (Method r) "POST") then 405
  else if isNil (decodeBody r) then 200
  else 400.

(** Whether a request is refused before any prompt is executed: by the
    method check, the body check or the gate on its headers. *)
Definition refusedEarly `{External} (r : Request) : bool :=
  negb (String.eqb (Method r) "POST")
  || negb (isNil (decodeBody r))
  || authorizationRejected (RHeader r).

Definition twoValueHeaders : HeaderMap :=
  {[ "Authorization" := ["Basic xyz"; "Bearer abc"] ]}.


(** * Properties *)

(** ** Strings and header lookup *)

Lemma substring_prefix_inv (p : string) :
  forall s, substring 0 (String.length p) s = p -> exists t, s = p +:+ t.
Proof.
  induction p as [|c p IH]; intros s Hs.
  - exists s. reflexivity.
  - destruct s as [|d s]; simpl in Hs; [discriminate|].
    injection Hs as Hc Hrest. subst d.
    destruct (IH s Hrest) as [t Ht]. exists t.
    change (String c p +:+ t) with (String c (p +:+ t)). congruence.
Qed.

Lemma substring_prefix_app (p t : string) :
  substring 0 (String.length p) (p +:+ t) = p.
Proof.
  induction p as [|c p IH].
  - destruct t; reflexivity.
  - change (String c p +:+ t) with (String c (p +:+ t)). simpl.
    rewrite IH. reflexivity.
Qed.

Lemma length_app_le (p t : string) :
  (String.length p <= String.length (p +:+ t))%nat.
Proof.
  induction p as [|c p IH]; [simpl; lia|].
  change (String c p +:+ t) with (String c (p +:+ t)). simpl. lia.
Qed.

(** [strings.HasPrefix] holds exactly of the strings that are the prefix
    followed by something. *)
Lemma HasPrefix_spec (s p : string) :
  HasPrefix s p = true <-> exists t, s = p +:+ t.
Proof.
  unfold HasPrefix. rewrite andb_true_iff, String.eqb_eq. split.
  - intros [_ Hsub]. apply substring_prefix_inv, Hsub.
  - intros [t ->]. split.
    + apply Nat.leb_le, length_app_le.
    + apply substring_prefix_app.
Qed.

Lemma HasPrefix_false (s p : string) :
  HasPrefix s p = false <-> ~ exists t, s = p +:+ t.
Proof.
  rewrite <- HasPrefix_spec. destruct (HasPrefix s p); split; congruence.
Qed.

(** Both keys the flows read are looked up under their canonical form. *)
Lemma Get_Authorization (m : gmap string (list string)) :
  Get (Some m) "Authorization"
  = match m !! "Authorization" with Some (v :: _) => v | _ => "" end.
Proof. reflexivity. Qed.

Lemma Get_XRequestID (m : gmap string (list string)) :
  Get (Some m) "X-Request-ID"
  = match m !! "X-Request-Id" with Some (v :: _) => v | _ => "" end.
Proof. reflexivity. Qed.

(** ** The carrier *)

Lemma ctxValue_WithValue (ctx : Context) (k : Key) (v : Value) :
  ctxValue (WithValue ctx k v) k = Some v.
Proof. simpl. destruct (decide (k = k)); congruence. Qed.

Lemma GetHeaders_header_entry (ctx : Context) (h : Header) :
  GetHeaders (WithValue ctx HeaderContextKey (VHeader h)) = h.
Proof. unfold GetHeaders. rewrite ctxValue_WithValue. reflexivity. Qed.

(** C4. Round trip: the headers read from the context that [WithHeaders]
    returns are the headers it was given, for every context and every
    header collection, the nil collection included. *)
Theorem GetHeaders_WithHeaders (ctx : Context) (H : Header) :
  GetHeaders (WithHeaders ctx H) = H.
Proof. unfold WithHeaders. apply GetHeaders_header_entry. Qed.

Lemma unattached_value (ctx : Context) :
  attached ctx = false ->
  forall h, ctxValue ctx HeaderContextKey <> Some (VHeader h).
Proof.
  induction ctx as [|parent IH k v|parent IH]; simpl; intros Hatt h.
  - discriminate.
  - destruct (decide (k = HeaderContextKey)) as [->|Hk].
    + destruct v; [discriminate | discriminate | discriminate].
    + apply IH. destruct k; try destruct v; try assumption; congruence.
  - apply IH, Hatt.
Qed.

(** C8. On a context no ancestor of which was made by [WithHeaders],
    [GetHeaders] gives nil, and so never a present but empty map. *)
Theorem GetHeaders_unattached (ctx : Context) :
  attached ctx = false ->
  GetHeaders ctx = None /\ GetHeaders ctx <> Some ∅.
Proof.
  intros Hatt. assert (Hnil : GetHeaders ctx = None).
  { unfold GetHeaders.
    destruct (ctxValue ctx HeaderContextKey) as [[h| |tag]|] eqn:Hv;
      try reflexivity.
    exfalso. exact (unattached_value ctx Hatt h Hv). }
  split; [exact Hnil | rewrite Hnil; discriminate].
Qed.

Lemma GetHeaders_unattached_witness :
  attached serverContext = false
  /\ GetHeaders serverContext = None /\ GetHeaders serverContext <> Some ∅.
Proof.
  split; [reflexivity | apply (GetHeaders_unattached serverContext); reflexivity].
Defined.

(** ** The gate *)

Lemma authorizationRejected_nil : authorizationRejected None = false.
Proof. reflexivity. Qed.

Lemma authorizationRejected_present (m : gmap string (list string)) :
  authorizationRejected (Some m)
  = negb (HasPrefix (Get (Some m) "Authorization") "Bearer ").
Proof. reflexivity. Qed.

(** C1. For a header collection that is present, the gate rejects exactly
    when the Authorization entry is not the bytes [Bearer ] followed by
    something; when it is, the gate lets it through whatever follows. *)
Theorem authorizationRejected_iff (m : gmap string (list string)) :
  (authorizationRejected (Some m) = true
   <-> ~ exists token, Get (Some m) "Authorization" = "Bearer " +:+ token)
  /\ (forall token,
        Get (Some m) "Authorization" = "Bearer " +:+ token ->
        authorizationRejected (Some m) = false).
Proof.
  rewrite authorizationRejected_present. split.
  - rewrite negb_true_iff. apply HasPrefix_false.
  - intros token Htok. apply negb_false_iff, HasPrefix_spec. eauto.
Qed.

Lemma authorizationRejected_iff_witness :
  authorizationRejected (Some basicHeaders) = true
  /\ authorizationRejected (Some bearerHeaders) = false.
Proof.
  split.
  - apply (proj1 (authorizationRejected_iff basicHeaders)).
    intros [token Htoken]. vm_compute in Htoken. discriminate.
  - apply (proj2 (authorizationRejected_iff bearerHeaders) "abc").
    vm_compute. reflexivity.
Defined.

(** The prefix is compared byte for byte: a lower-case scheme, or the
    scheme without its space, is rejected. *)
Example gate_is_case_sensitive :
  authorizationRejected (Some {[ "Authorization" := ["bearer abc"] ]}) = true
  /\ authorizationRejected (Some {[ "Authorization" := ["Bearer"] ]}) = true
  /\ authorizationRejected (Some {[ "Authorization" := ["Bearer "] ]}) = false.
Proof. repeat split; vm_compute; reflexivity. Qed.

(** ** Running the flows *)

Section Runs.
Context `{E : External}.

Lemma extend_nil (st : State) : extend st [] (world st) = st.
Proof. destruct st as [t w]. unfold extend. simpl. rewrite app_nil_r. reflexivity. Qed.

Lemma extend_extend (st : State) (e1 e2 : list Event) (w1 w2 : World) :
  extend (extend st e1 w1) e2 w2 = extend st (e1 ++ e2) w2.
Proof. unfold extend. simpl. rewrite app_assoc. reflexivity. Qed.

Lemma added_extend (st : State) (events : list Event) (w : World) :
  added st (extend st events w) = events.
Proof. unfold added, extend. simpl. apply drop_app_length. Qed.

Lemma emit_run (e : Event) (st : State) :
  emit e st = (tt, extend st [e] (world st)).
Proof. reflexivity. Qed.

Lemma logReceived_run (headers : Header) (msg : string) (st : State) :
  logReceived headers msg st
  = (tt, extend st (receivedEvents headers msg) (world st)).
Proof.
  unfold logReceived, receivedEvents.
  destruct headers; simpl; [reflexivity|].
  unfold ret. rewrite extend_nil. reflexivity.
Qed.

(** A leaf flow stopped by its gate answers with the fixed error and
    calls nothing outside. *)
Lemma simpleGreetingFlow_rejected ctx input cb (st : State) :
  authorizationRejected (GetHeaders ctx) = true ->
  simpleGreetingFlow ctx input cb st
  = (Err "invalid authorization header",
     extend st (receivedEvents (GetHeaders ctx)
                  "Received HTTP headers in simpleGreeting") (world st)).
Proof.
  intros Hgate. unfold simpleGreetingFlow, bind.
  rewrite logReceived_run, Hgate. reflexivity.
Qed.

Lemma greetingWithHistoryFlow_rejected ctx input (st : State) :
  authorizationRejected (GetHeaders ctx) = true ->
  greetingWithHistoryFlow ctx input st
  = (Err "invalid authorization header",
     extend st (receivedEvents (GetHeaders ctx)
                  "Received HTTP headers in greetingWithHistory") (world st)).
Proof.
  intros Hgate. unfold greetingWithHistoryFlow, bind.
  rewrite logReceived_run, Hgate. reflexivity.
Qed.

Lemma coffeeFlow_rejected ctx u (st : State) :
  authorizationRejected (GetHeaders ctx) = true ->
  coffeeFlow ctx u st
  = (Ok unauthorizedOutput,
     extend st (receivedEvents (GetHeaders ctx)
                  "Received HTTP headers in testAllCoffeeFlows") (world st)).
Proof.
  intros Hgate. unfold coffeeFlow, bind.
  rewrite logReceived_run, Hgate. reflexivity.
Qed.

(** A leaf flow let through by its gate logs its input, executes its
    prompt and returns what the prompt returned, text or error. *)
Lemma simpleGreetingFlow_passed ctx input cb (st : State) :
  authorizationRejected (GetHeaders ctx) = false ->
  simpleGreetingFlow ctx input cb st
  = let (resp, w) :=
      simpleGreetingPrompt_Execute ctx input (streamingCallback cb) (world st) in
    (resp,
     extend st
       (receivedEvents (GetHeaders ctx) "Received HTTP headers in simpleGreeting"
        ++ [EvLog InfoLevel [] ("input--------" +:+ simpleGreetingInput_JSON input);
            EvExecuteSimpleGreeting input (negb (isNil cb))])
       w).
Proof.
  intros Hgate. unfold simpleGreetingFlow, bind.
  rewrite logReceived_run, Hgate.
  unfold json_Marshal_simpleGreetingInput. rewrite emit_run.
  unfold external, ret. simpl.
  destruct (simpleGreetingPrompt_Execute ctx input (streamingCallback cb) (world st))
    as [[text|err] w];
    unfold extend; simpl; rewrite <- !app_assoc; reflexivity.
Qed.

Lemma greetingWithHistoryFlow_passed ctx input (st : State) :
  authorizationRejected (GetHeaders ctx) = false ->
  greetingWithHistoryFlow ctx input st
  = let (resp, w) := greetingWithHistoryPrompt_Execute ctx input (world st) in
    (resp,
     extend st
       (receivedEvents (GetHeaders ctx) "Received HTTP headers in greetingWithHistory"
        ++ [EvLog InfoLevel []
              ("input--------" +:+ customerTimeAndHistoryInput_JSON input);
            EvExecuteGreetingWithHistory input])
       w).
Proof.
  intros Hgate. unfold greetingWithHistoryFlow, bind.
  rewrite logReceived_run, Hgate.
  unfold json_Marshal_customerTimeAndHistoryInput. rewrite emit_run.
  unfold external, ret. simpl.
  destruct (greetingWithHistoryPrompt_Execute ctx input (world st))
    as [[text|err] w];
    unfold extend; simpl; rewrite <- !app_assoc; reflexivity.
Qed.

(** C2. A leaf flow invoked on a context that carries no headers is not
    stopped by the gate: it goes on to execute its prompt, and what it
    returns is what the prompt returned. *)
Theorem leaf_flows_pass_without_headers ctx sgInput cb hInput (st : State) :
  GetHeaders ctx = None ->
  simpleGreetingFlow ctx sgInput cb st
  = (let (resp, w) :=
       simpleGreetingPrompt_Execute ctx sgInput (streamingCallback cb) (world st) in
     (resp,
      extend st
        [EvLog InfoLevel [] ("input--------" +:+ simpleGreetingInput_JSON sgInput);
         EvExecuteSimpleGreeting sgInput (negb (isNil cb))]
        w))
  /\ greetingWithHistoryFlow ctx hInput st
     = (let (resp, w) := greetingWithHistoryPrompt_Execute ctx hInput (world st) in
        (resp,
         extend st
           [EvLog InfoLevel []
              ("input--------" +:+ customerTimeAndHistoryInput_JSON hInput);
            EvExecuteGreetingWithHistory hInput]
           w)).
Proof.
  intros Hnil. split.
  - rewrite simpleGreetingFlow_passed by (rewrite Hnil; reflexivity).
    rewrite Hnil. reflexivity.
  - rewrite greetingWithHistoryFlow_passed by (rewrite Hnil; reflexivity).
    rewrite Hnil. reflexivity.
Qed.

(** ** The composite flow *)

Lemma Run_run {In Out : Type} (name : string)
    (fn : Context -> In -> M (Result Out)) ctx input (st : State) :
  Run name fn ctx input st = fn ctx input (extend st [EvFlowRun name] (world st)).
Proof. reflexivity. Qed.

(** The whole run of the composite flow once its own gate is passed: the
    leaf gates see the same context and pass as well, so only a prompt
    can fail. *)
Lemma coffeeFlow_passed ctx u (st : State) :
  authorizationRejected (GetHeaders ctx) = false ->
  coffeeFlow ctx u st
  = let (r1, w1) :=
      simpleGreetingPrompt_Execute ctx (Some samInput) None (world st) in
    match r1 with
    | Err err =>
        (Ok (failed err), extend st (coffeePreamble ctx ++ simpleGreetingLeg ctx) w1)
    | Ok test1 =>
        let (r2, w2) :=
          greetingWithHistoryPrompt_Execute ctx (Some samHistoryInput) w1 in
        (Ok match r2 with
            | Err err => failed err
            | Ok test2 => passed test1 test2
            end,
         extend st
           (coffeePreamble ctx ++ simpleGreetingLeg ctx ++ greetingWithHistoryLeg ctx)
           w2)
    end.
Proof.
  intros Hgate. unfold coffeeFlow, bind at 1.
  rewrite logReceived_run, Hgate.
  unfold bind at 1. rewrite emit_run, extend_extend.
  unfold bind at 1. rewrite Run_run, extend_extend.
  rewrite simpleGreetingFlow_passed by exact Hgate.
  cbn [world extend streamingCallback isNil negb].
  destruct (simpleGreetingPrompt_Execute ctx (Some samInput) None (world st))
    as [[test1|err] w1].
  - rewrite extend_extend. unfold bind.
    rewrite Run_run, extend_extend.
    rewrite greetingWithHistoryFlow_passed by exact Hgate.
    cbn [world extend].
    destruct (greetingWithHistoryPrompt_Execute ctx (Some samHistoryInput) w1)
      as [[test2|err] w2];
      unfold ret, coffeePreamble, simpleGreetingLeg, greetingWithHistoryLeg,
        failed, passed, extend; cbn [trace world];
      rewrite <- ?app_assoc; reflexivity.
  - rewrite extend_extend.
    unfold ret, coffeePreamble, simpleGreetingLeg, failed, extend;
      cbn [trace world]; rewrite <- ?app_assoc; reflexivity.
Qed.

Lemma flowRuns_app (l1 l2 : list Event) :
  flowRuns (l1 ++ l2) = (flowRuns l1 ++ flowRuns l2)%list.
Proof.
  induction l1 as [|e l1 IH]; [reflexivity|].
  destruct e; simpl; rewrite IH; reflexivity.
Qed.

Lemma promptCalls_app (l1 l2 : list Event) :
  promptCalls (l1 ++ l2) = (promptCalls l1 ++ promptCalls l2)%list.
Proof.
  induction l1 as [|e l1 IH]; [reflexivity|].
  destruct e; simpl; rewrite IH; reflexivity.
Qed.

Lemma receivedEvents_quiet (headers : Header) (msg : string) :
  flowRuns (receivedEvents headers msg) = []
  /\ promptCalls (receivedEvents headers msg) = [].
Proof. destruct headers; split; reflexivity. Qed.

Lemma coffeePreamble_quiet ctx :
  flowRuns (coffeePreamble ctx) = [] /\ promptCalls (coffeePreamble ctx) = [].
Proof.
  unfold coffeePreamble. rewrite flowRuns_app, promptCalls_app.
  destruct (receivedEvents_quiet (GetHeaders ctx)
              "Received HTTP headers in testAllCoffeeFlows") as [-> ->].
  split; reflexivity.
Qed.

Lemma simpleGreetingLeg_calls ctx :
  flowRuns (simpleGreetingLeg ctx) = ["simpleGreeting"]
  /\ promptCalls (simpleGreetingLeg ctx) = [CallSimpleGreeting (Some samInput)].
Proof.
  unfold simpleGreetingLeg. rewrite !flowRuns_app, !promptCalls_app.
  destruct (receivedEvents_quiet (GetHeaders ctx)
              "Received HTTP headers in simpleGreeting") as [-> ->].
  split; reflexivity.
Qed.

Lemma greetingWithHistoryLeg_calls ctx :
  flowRuns (greetingWithHistoryLeg ctx) = ["greetingWithHistory"]
  /\ promptCalls (greetingWithHistoryLeg ctx)
     = [CallGreetingWithHistory (Some samHistoryInput)].
Proof.
  unfold greetingWithHistoryLeg. rewrite !flowRuns_app, !promptCalls_app.
  destruct (receivedEvents_quiet (GetHeaders ctx)
              "Received HTTP headers in greetingWithHistory") as [-> ->].
  split; reflexivity.
Qed.

(** C6. Past its gate, the composite flow runs simpleGreeting and then
    greetingWithHistory. If the first fails, the record carries that
    error text and the second is not run; if the second fails, the record
    carries its error text; otherwise the record holds both texts, in the
    order of the runs. *)
Theorem coffeeFlow_sequence ctx u (st : State) :
  authorizationRejected (GetHeaders ctx) = false ->
  let out := fst (coffeeFlow ctx u st) in
  let st' := snd (coffeeFlow ctx u st) in
  let (r1, w1) :=
    simpleGreetingPrompt_Execute ctx (Some samInput) None (world st) in
  match r1 with
  | Err err1 =>
      out = Ok {| Pass := false; Replies := None; Error := err1 |}
      /\ flowRuns (added st st') = ["simpleGreeting"]
      /\ promptCalls (added st st') = [CallSimpleGreeting (Some samInput)]
      /\ world st' = w1
  | Ok test1 =>
      let (r2, w2) :=
        greetingWithHistoryPrompt_Execute ctx (Some samHistoryInput) w1 in
      out = Ok match r2 with
               | Err err2 => {| Pass := false; Replies := None; Error := err2 |}
               | Ok test2 =>
                   {| Pass := true; Replies := Some [test1; test2]; Error := "" |}
               end
      /\ flowRuns (added st st') = ["simpleGreeting"; "greetingWithHistory"]
      /\ promptCalls (added st st')
         = [CallSimpleGreeting (Some samInput);
            CallGreetingWithHistory (Some samHistoryInput)]
      /\ world st' = w2
  end.
Proof.
  intros Hgate. cbv zeta. rewrite (coffeeFlow_passed ctx u st Hgate).
  destruct (coffeePreamble_quiet ctx) as [Hp1 Hp2].
  destruct (simpleGreetingLeg_calls ctx) as [Hs1 Hs2].
  destruct (greetingWithHistoryLeg_calls ctx) as [Hh1 Hh2].
  destruct (simpleGreetingPrompt_Execute ctx (Some samInput) None (world st))
    as [[test1|err1] w1].
  - destruct (greetingWithHistoryPrompt_Execute ctx (Some samHistoryInput) w1)
      as [r2 w2].
    cbn [fst snd]. rewrite added_extend.
    rewrite !flowRuns_app, !promptCalls_app, Hp1, Hp2, Hs1, Hs2, Hh1, Hh2.
    repeat split.
  - cbn [fst snd]. rewrite added_extend.
    rewrite !flowRuns_app, !promptCalls_app, Hp1, Hp2, Hs1, Hs2.
    repeat split.
Qed.


(** C10. When headers are attached but hold no Authorization entry, or
    one whose first value is empty, every flow is stopped by its gate:
    the leaf flows return the fixed error, the composite flow returns
    the failing record, and no prompt is executed. A context with no
    headers at all is let through. *)
Theorem missing_authorization_rejected ctx (m : gmap string (list string))
    sgInput cb hInput u (st : State) :
  GetHeaders ctx = Some m ->
  (m !! "Authorization" = None
   \/ m !! "Authorization" = Some []
   \/ exists rest, m !! "Authorization" = Some ("" :: rest)) ->
  (simpleGreetingFlow ctx sgInput cb st
   = (Err "invalid authorization header",
      extend st (receivedEvents (Some m) "Received HTTP headers in simpleGreeting")
        (world st)))
  /\ (greetingWithHistoryFlow ctx hInput st
      = (Err "invalid authorization header",
         extend st
           (receivedEvents (Some m) "Received HTTP headers in greetingWithHistory")
           (world st)))
  /\ (coffeeFlow ctx u st
      = (Ok {| Pass := false; Replies := None;
               Error := "invalid authorization header" |},
         extend st
           (receivedEvents (Some m) "Received HTTP headers in testAllCoffeeFlows")
           (world st)))
  /\ authorizationRejected None = false.
Proof.
  intros Hctx Hentry.
  assert (Hget : Get (Some m) "Authorization" = "").
  { rewrite Get_Authorization.
    destruct Hentry as [-> | [-> | [rest ->]]]; reflexivity. }
  assert (Hgate : authorizationRejected (GetHeaders ctx) = true).
  { rewrite Hctx, authorizationRejected_present, Hget. reflexivity. }
  rewrite simpleGreetingFlow_rejected, greetingWithHistoryFlow_rejected,
    coffeeFlow_rejected by exact Hgate.
  rewrite Hctx. repeat split.
Qed.

(** ** The endpoint *)

(** A POST whose body the handler lets through: the headers are attached
    and the composite flow is run on the empty input. *)
Lemma handler_accepted (w : ResponseWriter) (r : Request) (st : State) :
  Method r = "POST" ->
  decodeBody r = None ->
  handler w r st
  = let (res, st') :=
      coffeeFlow (WithHeaders (RContext r) (RHeader r)) tt
        (extend st
           [EvPrintln ["headers-------------   "; json_Marshal_Header (RHeader r)];
            EvFlowRun "testAllCoffeeFlows"]
           (world st)) in
    match res with
    | Err err =>
        (http_Error w ("Flow error: " +:+ err) 500,
         extend st' [EvLog ErrorLevel [("error", err)] "Flow execution failed"]
           (world st'))
    | Ok output =>
        (Write (WriteHeader (SetHeader w "Content-Type" "application/json") 200)
           (json_Encode_output output),
         st')
    end.
Proof.
  intros Hpost Hbody. unfold handler. rewrite Hpost, Hbody.
  change (String.eqb "POST" "POST") with true. cbn [negb].
  unfold bind at 1. rewrite emit_run.
  unfold bind at 1. rewrite Run_run, extend_extend. cbn [world extend app].
  destruct (coffeeFlow _ _ _) as [[output|err] st']; reflexivity.
Qed.

(** A POST whose body the decoder was given and refused. *)
Lemma handler_refused (w : ResponseWriter) (r : Request) (st : State) err :
  Method r = "POST" ->
  decodeBody r = Some err ->
  handler w r st
  = (http_Error w "Invalid input" 400,
     extend st [EvLog ErrorLevel [("error", err)] "Failed to decode request body"]
       (world st)).
Proof.
  intros Hpost Hbody. unfold handler. rewrite Hpost, Hbody.
  change (String.eqb "POST" "POST") with true. reflexivity.
Qed.

(** With a positive declared length, a body the decoder refuses is
    answered with 400 and no flow is run. *)
Lemma declared_malformed_body_refused (r : Request) (st : State) err :
  Method r = "POST" ->
  0 < ContentLength r ->
  json_Decode (Body r) = Some err ->
  let (w, st') := handler freshWriter r st in
  wStatus w = Some 400 /\ flowRuns (added st st') = [].
Proof.
  intros Hpost Hlen Hdec.
  rewrite (handler_refused freshWriter r st err Hpost).
  - rewrite added_extend. split; reflexivity.
  - unfold decodeBody. apply Z.ltb_lt in Hlen. rewrite Hlen. exact Hdec.
Qed.

(** With a declared length of zero, or an unknown one, the body is not
    read: the handler goes on with the empty input. *)
Lemma undeclared_body_not_decoded (r : Request) :
  ContentLength r <= 0 -> decodeBody r = None.
Proof.
  intros Hlen. unfold decodeBody.
  destruct (0 <? ContentLength r) eqn:Hlt; [|reflexivity].
  apply Z.ltb_lt in Hlt. lia.
Qed.

(** The composite flow always returns a record, never an error, and only
    adds to the trace. *)
Lemma coffeeFlow_extends ctx u (st : State) :
  exists out events w, coffeeFlow ctx u st = (Ok out, extend st events w).
Proof.
  destruct (authorizationRejected (GetHeaders ctx)) eqn:Hgate.
  - rewrite coffeeFlow_rejected by exact Hgate. eauto.
  - rewrite coffeeFlow_passed by exact Hgate.
    destruct (simpleGreetingPrompt_Execute ctx (Some samInput) None (world st))
      as [[test1|err1] w1]; [|eauto].
    destruct (greetingWithHistoryPrompt_Execute ctx (Some samHistoryInput) w1)
      as [r2 w2]. eauto.
Qed.

(** So a POST whose length is zero or unknown is answered 200 after the
    composite flow was run, whatever its body holds. *)
Lemma undeclared_body_runs_flow (r : Request) (st : State) :
  Method r = "POST" ->
  ContentLength r <= 0 ->
  let (w, st') := handler freshWriter r st in
  wStatus w = Some 200
  /\ exists rest, flowRuns (added st st') = "testAllCoffeeFlows" :: rest.
Proof.
  intros Hpost Hlen.
  rewrite (handler_accepted freshWriter r st Hpost
             (undeclared_body_not_decoded r Hlen)).
  destruct (coffeeFlow_extends (WithHeaders (RContext r) (RHeader r)) tt
              (extend st
                 [EvPrintln ["headers-------------   ";
                             json_Marshal_Header (RHeader r)];
                  EvFlowRun "testAllCoffeeFlows"]
                 (world st))) as (out & events & w & ->).
  rewrite extend_extend, added_extend. split; [reflexivity|].
  exists (flowRuns events). reflexivity.
Qed.

(** C5. A POST whose headers get attached, with an Authorization entry
    that lacks the bearer prefix: the composite flow returns the failing
    record and no error, and the endpoint answers 200 with that record
    as its JSON body; no prompt is executed. *)
Theorem unauthorized_post_answers_200 (r : Request)
    (m : gmap string (list string)) (st : State) :
  Method r = "POST" ->
  decodeBody r = None ->
  RHeader r = Some m ->
  HasPrefix (Get (Some m) "Authorization") "Bearer " = false ->
  (forall st0,
     fst (coffeeFlow (WithHeaders (RContext r) (RHeader r)) tt st0)
     = Ok {| Pass := false; Replies := None;
             Error := "invalid authorization header" |})
  /\ let (w, st') := handler freshWriter r st in
     wStatus w = Some 200
     /\ wBody w
        = "{" +:+ quoted "pass" +:+ ":false," +:+ quoted "error" +:+ ":"
          +:+ jsonString "invalid authorization header" +:+ "}" +:+ newline
     /\ wHeader w !! "Content-Type" = Some ["application/json"]
     /\ flowRuns (added st st') = ["testAllCoffeeFlows"]
     /\ promptCalls (added st st') = [].
Proof.
  intros Hpost Hbody Hhdr Hprefix.
  assert (Hgate : authorizationRejected
                    (GetHeaders (WithHeaders (RContext r) (RHeader r))) = true).
  { unfold WithHeaders.
    rewrite GetHeaders_header_entry, Hhdr, authorizationRejected_present, Hprefix.
    reflexivity. }
  split.
  - intros st0. rewrite coffeeFlow_rejected by exact Hgate. reflexivity.
  - rewrite (handler_accepted freshWriter r st Hpost Hbody).
    rewrite coffeeFlow_rejected by exact Hgate.
    unfold WithHeaders.
    rewrite extend_extend, added_extend, GetHeaders_header_entry, Hhdr.
    repeat split.
Qed.

(** C9. The request body has no influence: two accepted requests that
    agree on method, headers and context get the same response and leave
    the same trace; the composite flow returns the same for any two
    inputs; and every prompt it executes is given the fixed customer. *)
Theorem request_body_noninterference (r1 r2 : Request) (w : ResponseWriter)
    ctx (u1 u2 : unit) (st : State) :
  Method r1 = Method r2 ->
  RHeader r1 = RHeader r2 ->
  RContext r1 = RContext r2 ->
  decodeBody r1 = None ->
  decodeBody r2 = None ->
  handler w r1 st = handler w r2 st
  /\ coffeeFlow ctx u1 st = coffeeFlow ctx u2 st
  /\ Forall (fun c => c = CallSimpleGreeting (Some samInput)
                      \/ c = CallGreetingWithHistory (Some samHistoryInput))
       (promptCalls (added st (snd (coffeeFlow ctx u1 st)))).
Proof.
  intros Hmethod Hhdr Hctx Hb1 Hb2. split; [|split].
  - unfold handler. rewrite Hmethod, Hhdr, Hctx, Hb1, Hb2. reflexivity.
  - destruct u1, u2. reflexivity.
  - destruct (authorizationRejected (GetHeaders ctx)) eqn:Hgate.
    + rewrite coffeeFlow_rejected by exact Hgate. cbn [snd].
      rewrite added_extend.
      destruct (receivedEvents_quiet (GetHeaders ctx)
                  "Received HTTP headers in testAllCoffeeFlows") as [_ ->].
      constructor.
    + rewrite coffeeFlow_passed by exact Hgate.
      destruct (coffeePreamble_quiet ctx) as [_ Hp].
      destruct (simpleGreetingLeg_calls ctx) as [_ Hs].
      destruct (greetingWithHistoryLeg_calls ctx) as [_ Hh].
      destruct (simpleGreetingPrompt_Execute ctx (Some samInput) None (world st))
        as [[test1|err1] w1].
      * destruct (greetingWithHistoryPrompt_Execute ctx (Some samHistoryInput) w1)
          as [r2' w2].
        cbn [snd]. rewrite added_extend, !promptCalls_app, Hp, Hs, Hh.
        cbn [app]. constructor; [left; reflexivity|].
        constructor; [right; reflexivity|]. constructor.
      * cbn [snd]. rewrite added_extend, !promptCalls_app, Hp, Hs.
        cbn [app]. constructor; [left; reflexivity|]. constructor.
Qed.

End Runs.

(** ** Closed instances *)

Lemma leaf_flows_pass_without_headers_witness :
  GetHeaders Background = None
  /\ fst (@simpleGreetingFlow friendly Background (Some samInput) None
            (startState _ _))
     = Ok "Hi Sam, try a latte."
  /\ fst (@greetingWithHistoryFlow friendly Background (Some samHistoryInput)
            (startState _ _))
     = Ok "Welcome back Sam, a mocha today?".
Proof.
  destruct (@leaf_flows_pass_without_headers friendly Background
              (Some samInput) None (Some samHistoryInput) (startState _ _)
              eq_refl) as [H1 H2].
  split; [reflexivity|]. rewrite H1, H2. split; reflexivity.
Defined.

Lemma coffeeFlow_sequence_witness :
  authorizationRejected
    (GetHeaders (WithHeaders serverContext (Some bearerHeaders))) = false
  /\ fst (@coffeeFlow friendly (WithHeaders serverContext (Some bearerHeaders)) tt
            (startState _ _))
     = Ok {| Pass := true;
             Replies := Some ["Hi Sam, try a latte.";
                              "Welcome back Sam, a mocha today?"];
             Error := "" |}.
Proof.
  split; [reflexivity|].
  exact (proj1 (@coffeeFlow_sequence friendly
                  (WithHeaders serverContext (Some bearerHeaders)) tt
                  (startState _ _) eq_refl)).
Defined.

(** The first prompt fails: its error text is reported and the second
    flow is not run. *)
Example coffeeFlow_short_circuit :
  let run := @coffeeFlow (scripted (Err "model unavailable") (Ok "unused"))
               Background tt (startState _ _) in
  fst run = Ok {| Pass := false; Replies := None; Error := "model unavailable" |}
  /\ flowRuns (trace (snd run)) = ["simpleGreeting"].
Proof. split; reflexivity. Qed.


Lemma missing_authorization_rejected_witness :
  GetHeaders (WithHeaders serverContext (Some noAuthHeaders)) = Some noAuthHeaders
  /\ noAuthHeaders !! "Authorization" = None
  /\ fst (@coffeeFlow friendly (WithHeaders serverContext (Some noAuthHeaders)) tt
            (startState _ _))
     = Ok {| Pass := false; Replies := None;
             Error := "invalid authorization header" |}.
Proof.
  assert (Hnone : noAuthHeaders !! "Authorization" = None) by (vm_compute; reflexivity).
  destruct (@missing_authorization_rejected friendly
              (WithHeaders serverContext (Some noAuthHeaders)) noAuthHeaders
              (Some samInput) None (Some samHistoryInput) tt (startState _ _)
              eq_refl (or_introl Hnone)) as (_ & _ & H3 & _).
  split; [reflexivity|]. split; [exact Hnone|]. rewrite H3. reflexivity.
Defined.

Lemma unauthorized_post_answers_200_witness :
  let r := post 0 "" (Some basicHeaders) in
  Method r = "POST"
  /\ @decodeBody friendly r = None
  /\ HasPrefix (Get (Some basicHeaders) "Authorization") "Bearer " = false
  /\ wStatus (fst (@handler friendly freshWriter r (startState _ _))) = Some 200.
Proof.
  cbv zeta.
  assert (Hprefix : HasPrefix (Get (Some basicHeaders) "Authorization") "Bearer "
                    = false) by (vm_compute; reflexivity).
  pose proof (@unauthorized_post_answers_200 friendly
                (post 0 "" (Some basicHeaders)) basicHeaders (startState _ _)
                eq_refl eq_refl eq_refl Hprefix) as [_ H].
  destruct (@handler friendly freshWriter (post 0 "" (Some basicHeaders))
              (startState _ _)) as [w st'].
  destruct H as [Hstatus _].
  split; [reflexivity|]. split; [reflexivity|].
  split; [exact Hprefix | exact Hstatus].
Defined.

Lemma request_body_noninterference_witness :
  let r1 := post 0 "" (Some bearerHeaders) in
  let r2 := post 2 "{}" (Some bearerHeaders) in
  @decodeBody friendly r1 = None
  /\ @decodeBody friendly r2 = None
  /\ @handler friendly freshWriter r1 (startState _ _)
     = @handler friendly freshWriter r2 (startState _ _).
Proof.
  cbv zeta. split; [reflexivity|]. split; [reflexivity|].
  exact (proj1 (@request_body_noninterference friendly
                  (post 0 "" (Some bearerHeaders)) (post 2 "{}" (Some bearerHeaders))
                  freshWriter Background tt tt (startState _ _)
                  eq_refl eq_refl eq_refl eq_refl eq_refl)).
Defined.

(** C7 at a request sent with chunked transfer encoding, so that its
    length is unknown: the body is one the decoder refuses, yet it is
    never decoded, the composite flow is run and the answer is 200. The
    same body with its length declared is answered with 400. *)
Theorem chunked_malformed_body_reaches_flow :
  let chunked := post (-1) "{invalid" (Some bearerHeaders) in
  let declared := post 8 "{invalid" (Some bearerHeaders) in
  let run := @handler friendly freshWriter chunked (startState _ _) in
  let run' := @handler friendly freshWriter declared (startState _ _) in
  @json_Decode friendly "{invalid" <> None
  /\ wStatus (fst run) = Some 200
  /\ flowRuns (trace (snd run))
     = ["testAllCoffeeFlows"; "simpleGreeting"; "greetingWithHistory"]
  /\ wStatus (fst run') = Some 400
  /\ flowRuns (trace (snd run')) = [].
Proof. cbv zeta. split; [discriminate|]. repeat split; vm_compute; reflexivity. Qed.

(** * Further properties of the carrier, the flows and the endpoint *)

(** ** Contexts derived from an attached one *)

Lemma GetHeaders_derivedFrom (base ctx : Context) :
  derivedFrom base ctx -> GetHeaders ctx = GetHeaders base.
Proof.
  induction 1 as [|ctx key val Hkey Hder IH|ctx Hder IH].
  - reflexivity.
  - rewrite <- IH. unfold GetHeaders, WithValue. simpl.
    destruct (decide (key = HeaderContextKey)); [contradiction | reflexivity].
  - rewrite <- IH. reflexivity.
Qed.

(** X1. Headers attached with [WithHeaders] are what [GetHeaders] reads
    from every context derived on top of it that does not bind the key
    again, whatever the context held before the attachment. *)
Theorem attached_headers_survive_derivation (ctx0 : Context) (H : Header)
    (ctx : Context) :
  derivedFrom (WithHeaders ctx0 H) ctx ->
  GetHeaders ctx = H.
Proof.
  intros Hder. rewrite (GetHeaders_derivedFrom _ _ Hder).
  unfold WithHeaders. apply GetHeaders_header_entry.
Qed.

Lemma attached_headers_survive_derivation_witness :
  GetHeaders
    (cancelCtx
       (WithValue
          (WithHeaders (WithHeaders serverContext (Some basicHeaders))
             (Some bearerHeaders))
          (OtherKey "flow") (VOther "flowContext")))
  = Some bearerHeaders.
Proof.
  apply (attached_headers_survive_derivation
           (WithHeaders serverContext (Some basicHeaders)) (Some bearerHeaders)).
  apply derived_cancel, derived_value; [discriminate | apply derived_base].
Defined.

(** ** The gate and the header values *)

(** X2. Only the first value under the Authorization key counts: the
    gate's decision on a present collection is the prefix test on that
    value, whatever further values and other keys the collection has. *)
Theorem gate_reads_first_value (m : gmap string (list string))
    (v : string) (rest : list string) :
  m !! "Authorization" = Some (v :: rest) ->
  authorizationRejected (Some m) = negb (HasPrefix v "Bearer ").
Proof.
  intros Hentry. rewrite authorizationRejected_present, Get_Authorization, Hentry.
  reflexivity.
Qed.

Lemma gate_reads_first_value_witness :
  twoValueHeaders !! "Authorization" = Some ["Basic xyz"; "Bearer abc"]
  /\ authorizationRejected (Some twoValueHeaders) = true.
Proof.
  assert (Hentry : twoValueHeaders !! "Authorization"
                   = Some ["Basic xyz"; "Bearer abc"]) by (vm_compute; reflexivity).
  split; [exact Hentry|].
  rewrite (gate_reads_first_value twoValueHeaders "Basic xyz" ["Bearer abc"] Hentry).
  reflexivity.
Defined.

Section Endpoint.
Context `{E : External}.

(** ** Leaf flows on attached headers *)

(** X3. A leaf flow whose context carries headers with a bearer
    Authorization value logs the headers, logs its input, executes its
    prompt once and returns what the prompt returned, an error included,
    whatever follows the prefix. *)
Theorem leaf_flows_run_with_bearer ctx (m : gmap string (list string))
    (token : string) sgInput cb hInput (st : State) :
  GetHeaders ctx = Some m ->
  Get (Some m) "Authorization" = "Bearer " +:+ token ->
  simpleGreetingFlow ctx sgInput cb st
  = (let (resp, w) :=
       simpleGreetingPrompt_Execute ctx sgInput (streamingCallback cb) (world st) in
     (resp,
      extend st
        [EvLog InfoLevel
           [("authorization", "Bearer " +:+ token);
            ("x-request-id", Get (Some m) "X-Request-ID")]
           "Received HTTP headers in simpleGreeting";
         EvLog InfoLevel [] ("input--------" +:+ simpleGreetingInput_JSON sgInput);
         EvExecuteSimpleGreeting sgInput (negb (isNil cb))]
        w))
  /\ greetingWithHistoryFlow ctx hInput st
     = (let (resp, w) := greetingWithHistoryPrompt_Execute ctx hInput (world st) in
        (resp,
         extend st
           [EvLog InfoLevel
              [("authorization", "Bearer " +:+ token);
               ("x-request-id", Get (Some m) "X-Request-ID")]
              "Received HTTP headers in greetingWithHistory";
            EvLog InfoLevel []
              ("input--------" +:+ customerTimeAndHistoryInput_JSON hInput);
            EvExecuteGreetingWithHistory hInput]
           w)).
Proof.
  intros Hctx Hauth.
  assert (Hgate : authorizationRejected (GetHeaders ctx) = false).
  { rewrite Hctx, authorizationRejected_present.
    apply negb_false_iff, HasPrefix_spec. eauto. }
  split.
  - rewrite simpleGreetingFlow_passed by exact Hgate.
    rewrite Hctx. unfold receivedEvents. cbn [isNil negb app]. rewrite Hauth.
    reflexivity.
  - rewrite greetingWithHistoryFlow_passed by exact Hgate.
    rewrite Hctx. unfold receivedEvents. cbn [isNil negb app]. rewrite Hauth.
    reflexivity.
Qed.

(** X4. A leaf flow whose context carries headers without the bearer
    prefix returns the fixed error after one log line: no prompt is
    executed and the state of the model is left as it was. *)
Theorem leaf_flows_reject_without_bearer ctx (m : gmap string (list string))
    sgInput cb hInput (st : State) :
  GetHeaders ctx = Some m ->
  HasPrefix (Get (Some m) "Authorization") "Bearer " = false ->
  let run1 := simpleGreetingFlow ctx sgInput cb st in
  let run2 := greetingWithHistoryFlow ctx hInput st in
  fst run1 = Err "invalid authorization header"
  /\ fst run2 = Err "invalid authorization header"
  /\ length (added st (snd run1)) = 1%nat
  /\ length (added st (snd run2)) = 1%nat
  /\ promptCalls (added st (snd run1)) = []
  /\ promptCalls (added st (snd run2)) = []
  /\ world (snd run1) = world st
  /\ world (snd run2) = world st.
Proof.
  intros Hctx Hprefix. cbv zeta.
  assert (Hgate : authorizationRejected (GetHeaders ctx) = true).
  { rewrite Hctx, authorizationRejected_present, Hprefix. reflexivity. }
  rewrite simpleGreetingFlow_rejected, greetingWithHistoryFlow_rejected
    by exact Hgate.
  cbn [fst snd]. rewrite !added_extend, Hctx. repeat split.
Qed.

(** ** The three exits of the handler *)

Lemma handler_not_post (w : ResponseWriter) (r : Request) (st : State) :
  Method r <> "POST" ->
  handler w r st = (http_Error w "Method not allowed" 405, st).
Proof.
  intros Hmethod. unfold handler.
  apply String.eqb_neq in Hmethod. rewrite Hmethod. reflexivity.
Qed.

Lemma added_same (st : State) : added st st = [].
Proof. unfold added. apply drop_all. Qed.


(** X6. The status of every response is 405 for a method other than
    POST, 400 for a POST whose body the handler refuses, and 200 for
    every other POST; the 500 exit is never taken, because the composite
    flow never returns an error. *)
Theorem handler_status (r : Request) (st : State) :
  wStatus (fst (handler freshWriter r st)) = Some (expectedStatus r)
  /\ wStatus (fst (handler freshWriter r st)) <> Some 500.
Proof.
  assert (Hstatus : wStatus (fst (handler freshWriter r st))
                    = Some (expectedStatus r)).
  { unfold expectedStatus.
    destruct (String.eqb (Method r) "POST") eqn:Hmethod; cbn [negb].
    - apply String.eqb_eq in Hmethod.
      destruct (decodeBody r) as [err|] eqn:Hbody; cbn [isNil].
      + rewrite (handler_refused freshWriter r st err Hmethod Hbody). reflexivity.
      + rewrite (handler_accepted freshWriter r st Hmethod Hbody).
        destruct (coffeeFlow_extends (WithHeaders (RContext r) (RHeader r)) tt
                    (extend st
                       [EvPrintln ["headers-------------   ";
                                   json_Marshal_Header (RHeader r)];
                        EvFlowRun "testAllCoffeeFlows"]
                       (world st))) as (out & events & w & ->).
        reflexivity.
    - apply String.eqb_neq in Hmethod.
      rewrite (handler_not_post freshWriter r st Hmethod). reflexivity. }
  split; [exact Hstatus|]. rewrite Hstatus. unfold expectedStatus.
  destruct (negb (String.eqb (Method r) "POST")); [discriminate|].
  destruct (isNil (decodeBody r)); discriminate.
Qed.

(** X7. A POST with a positive declared length whose body the decoder
    refuses is answered 400 with the plain-text line [Invalid input];
    the decoder's error is logged once, no flow is run and the model is
    not contacted. *)
Theorem refused_body_answers_400 (r : Request) (st : State) (err : string) :
  Method r = "POST" ->
  0 < ContentLength r ->
  json_Decode (Body r) = Some err ->
  let (w, st') := handler freshWriter r st in
  wStatus w = Some 400
  /\ wBody w = "Invalid input" +:+ newline
  /\ wHeader w !! "Content-Type" = Some ["text/plain; charset=utf-8"]
  /\ added st st'
     = [EvLog ErrorLevel [("error", err)] "Failed to decode request body"]
  /\ world st' = world st.
Proof.
  intros Hmethod Hlen Hdecode.
  assert (Hbody : decodeBody r = Some err).
  { unfold decodeBody. apply Z.ltb_lt in Hlen. rewrite Hlen. exact Hdecode. }
  rewrite (handler_refused freshWriter r st err Hmethod Hbody).
  rewrite added_extend. repeat split; vm_compute; reflexivity.
Qed.

(** X8. The model is contacted exactly for the requests that pass the
    method check, the body check and the gate on the request's own
    headers: for any other request no prompt is executed and the state of
    the model is unchanged; for these the first prompt is executed on the
    fixed customer. *)
Theorem model_contacted_iff_admitted (r : Request) (st : State) :
  let (w, st') := handler freshWriter r st in
  if refusedEarly r
  then promptCalls (added st st') = [] /\ world st' = world st
  else exists rest,
      promptCalls (added st st') = CallSimpleGreeting (Some samInput) :: rest.
Proof.
  unfold refusedEarly.
  destruct (String.eqb (Method r) "POST") eqn:Hmethod; cbn [negb orb].
  - apply String.eqb_eq in Hmethod.
    destruct (decodeBody r) as [err|] eqn:Hbody; cbn [isNil negb orb].
    + rewrite (handler_refused freshWriter r st err Hmethod Hbody).
      rewrite added_extend. split; reflexivity.
    + rewrite (handler_accepted freshWriter r st Hmethod Hbody).
      assert (Hget : GetHeaders (WithHeaders (RContext r) (RHeader r)) = RHeader r)
        by (unfold WithHeaders; apply GetHeaders_header_entry).
      destruct (authorizationRejected (RHeader r)) eqn:Hgate.
      * rewrite coffeeFlow_rejected by (rewrite Hget; exact Hgate).
        rewrite extend_extend, added_extend, promptCalls_app.
        destruct (receivedEvents_quiet
                    (GetHeaders (WithHeaders (RContext r) (RHeader r)))
                    "Received HTTP headers in testAllCoffeeFlows") as [_ ->].
        split; reflexivity.
      * rewrite coffeeFlow_passed by (rewrite Hget; exact Hgate).
        cbn [world extend].
        destruct (coffeePreamble_quiet (WithHeaders (RContext r) (RHeader r)))
          as [_ Hp].
        destruct (simpleGreetingLeg_calls (WithHeaders (RContext r) (RHeader r)))
          as [_ Hs].
        destruct (simpleGreetingPrompt_Execute _ (Some samInput) None (world st))
          as [[test1|err1] w1].
        -- destruct (greetingWithHistoryPrompt_Execute _ (Some samHistoryInput) w1)
             as [r2 w2].
           rewrite extend_extend, added_extend, !promptCalls_app, Hp, Hs.
           cbn [promptCalls app]. eauto.
        -- rewrite extend_extend, added_extend, !promptCalls_app, Hp, Hs.
           cbn [promptCalls app]. eauto.
  - apply String.eqb_neq in Hmethod.
    rewrite (handler_not_post freshWriter r st Hmethod).
    rewrite added_same. split; reflexivity.
Qed.

(** ** What a client reads in the body *)

Lemma string_app_assoc (a b c : string) :
  (a +:+ b) +:+ c = a +:+ (b +:+ c).
Proof.
  induction a as [|x a IH]; [reflexivity|].
  change (String x a +:+ b) with (String x (a +:+ b)).
  change (String x (a +:+ b) +:+ c) with (String x ((a +:+ b) +:+ c)).
  rewrite IH. reflexivity.
Qed.

Lemma json_Encode_passed (test1 test2 : string) :
  json_Encode_output (passed test1 test2)
  = "{" +:+ quoted "pass" +:+ ":true," +:+ quoted "replies" +:+ ":["
    +:+ jsonString test1 +:+ "," +:+ jsonString test2 +:+ "]}" +:+ newline.
Proof.
  unfold json_Encode_output, passed. cbn [Pass Replies Error map String.concat].
  change (String.eqb "" "") with true. cbv iota.
  rewrite !string_app_assoc. reflexivity.
Qed.

Lemma json_Encode_failed (err : string) :
  json_Encode_output (failed err)
  = if String.eqb err "" then "{" +:+ quoted "pass" +:+ ":false}" +:+ newline
    else "{" +:+ quoted "pass" +:+ ":false," +:+ quoted "error" +:+ ":"
         +:+ jsonString err +:+ "}" +:+ newline.
Proof.
  unfold json_Encode_output, failed. cbn [Pass Replies Error].
  destruct (String.eqb err ""); rewrite ?string_app_assoc; reflexivity.
Qed.

(** X9. A POST that is admitted and whose two prompts succeed is
    answered 200 with a JSON body of pass true and both texts, the
    simple greeting first; the three flows were run in order and the
    model was left in the state the second prompt gave. *)
Theorem authorized_post_answers_replies (r : Request)
    (test1 test2 : string) (w1 w2 : World) (st : State) :
  let ctx := WithHeaders (RContext r) (RHeader r) in
  Method r = "POST" ->
  decodeBody r = None ->
  authorizationRejected (RHeader r) = false ->
  simpleGreetingPrompt_Execute ctx (Some samInput) None (world st)
  = (Ok test1, w1) ->
  greetingWithHistoryPrompt_Execute ctx (Some samHistoryInput) w1
  = (Ok test2, w2) ->
  let (w, st') := handler freshWriter r st in
  wStatus w = Some 200
  /\ wHeader w !! "Content-Type" = Some ["application/json"]
  /\ wBody w
     = "{" +:+ quoted "pass" +:+ ":true," +:+ quoted "replies" +:+ ":["
       +:+ jsonString test1 +:+ "," +:+ jsonString test2 +:+ "]}" +:+ newline
  /\ flowRuns (added st st')
     = ["testAllCoffeeFlows"; "simpleGreeting"; "greetingWithHistory"]
  /\ world st' = w2.
Proof.
  intros ctx Hmethod Hbody Hgate H1 H2. subst ctx.
  assert (Hget : GetHeaders (WithHeaders (RContext r) (RHeader r)) = RHeader r)
    by (unfold WithHeaders; apply GetHeaders_header_entry).
  rewrite (handler_accepted freshWriter r st Hmethod Hbody).
  rewrite coffeeFlow_passed by (rewrite Hget; exact Hgate).
  cbn [world extend]. rewrite H1, H2.
  destruct (coffeePreamble_quiet (WithHeaders (RContext r) (RHeader r))) as [Hp _].
  destruct (simpleGreetingLeg_calls (WithHeaders (RContext r) (RHeader r)))
    as [Hs _].
  destruct (greetingWithHistoryLeg_calls (WithHeaders (RContext r) (RHeader r)))
    as [Hh _].
  rewrite extend_extend, added_extend, !flowRuns_app, Hp, Hs, Hh.
  split; [reflexivity|]. split; [vm_compute; reflexivity|].
  split; [|split; reflexivity].
  cbn [wBody Write WriteHeader SetHeader freshWriter].
  apply (json_Encode_passed test1 test2).
Qed.

(** X10. A POST that is admitted and one of whose prompts fails is still
    answered 200: the body has pass false and the error text of the
    failed prompt, and no error field at all when that text is empty. *)
Theorem prompt_failure_answers_200 (r : Request) (err : string) (st : State) :
  let ctx := WithHeaders (RContext r) (RHeader r) in
  Method r = "POST" ->
  decodeBody r = None ->
  authorizationRejected (RHeader r) = false ->
  ((exists w1,
       simpleGreetingPrompt_Execute ctx (Some samInput) None (world st)
       = (Err err, w1))
   \/ (exists test1 w1 w2,
         simpleGreetingPrompt_Execute ctx (Some samInput) None (world st)
         = (Ok test1, w1)
         /\ greetingWithHistoryPrompt_Execute ctx (Some samHistoryInput) w1
            = (Err err, w2))) ->
  let (w, st') := handler freshWriter r st in
  wStatus w = Some 200
  /\ wHeader w !! "Content-Type" = Some ["application/json"]
  /\ wBody w
     = if String.eqb err "" then "{" +:+ quoted "pass" +:+ ":false}" +:+ newline
       else "{" +:+ quoted "pass" +:+ ":false," +:+ quoted "error" +:+ ":"
            +:+ jsonString err +:+ "}" +:+ newline.
Proof.
  intros ctx Hmethod Hbody Hgate Hfail. subst ctx.
  assert (Hget : GetHeaders (WithHeaders (RContext r) (RHeader r)) = RHeader r)
    by (unfold WithHeaders; apply GetHeaders_header_entry).
  rewrite (handler_accepted freshWriter r st Hmethod Hbody).
  rewrite coffeeFlow_passed by (rewrite Hget; exact Hgate).
  cbn [world extend].
  destruct Hfail as [[w1 H1] | (test1 & w1 & w2 & H1 & H2)].
  - rewrite H1. split; [reflexivity|]. split; [vm_compute; reflexivity|].
    cbn [wBody Write WriteHeader SetHeader freshWriter].
    apply (json_Encode_failed err).
  - rewrite H1, H2. split; [reflexivity|]. split; [vm_compute; reflexivity|].
    cbn [wBody Write WriteHeader SetHeader freshWriter].
    apply (json_Encode_failed err).
Qed.

(** ** What reaches the log *)

Lemma loggedAuthorization_app (l1 l2 : list Event) :
  loggedAuthorization (l1 ++ l2)
  = (loggedAuthorization l1 ++ loggedAuthorization l2)%list.
Proof.
  induction l1 as [|e l1 IH]; [reflexivity|].
  destruct e; simpl; rewrite IH, ?app_assoc; reflexivity.
Qed.

Lemma loggedAuthorization_received (m : gmap string (list string)) (msg : string) :
  loggedAuthorization (receivedEvents (Some m) msg)
  = [Get (Some m) "Authorization"].
Proof. reflexivity. Qed.

(** X11. When headers are present, every flow that starts writes the raw
    Authorization value to the log before it checks it: once when the
    composite flow is stopped by its gate, twice when the first prompt
    fails, three times otherwise. *)
Theorem flows_log_authorization_value ctx (m : gmap string (list string))
    u (st : State) :
  GetHeaders ctx = Some m ->
  loggedAuthorization (added st (snd (coffeeFlow ctx u st)))
  = replicate
      (if authorizationRejected (Some m) then 1
       else match fst (simpleGreetingPrompt_Execute ctx (Some samInput) None
                         (world st)) with
            | Err _ => 2
            | Ok _ => 3
            end)%nat
      (Get (Some m) "Authorization").
Proof.
  intros Hctx.
  destruct (authorizationRejected (Some m)) eqn:Hgate.
  - rewrite coffeeFlow_rejected by (rewrite Hctx; exact Hgate).
    cbn [snd]. rewrite added_extend, Hctx. reflexivity.
  - rewrite coffeeFlow_passed by (rewrite Hctx; exact Hgate).
    destruct (simpleGreetingPrompt_Execute ctx (Some samInput) None (world st))
      as [[test1|err1] w1]; cbn [fst].
    + destruct (greetingWithHistoryPrompt_Execute ctx (Some samHistoryInput) w1)
        as [r2 w2].
      cbn [snd]. rewrite added_extend.
      unfold coffeePreamble, simpleGreetingLeg, greetingWithHistoryLeg.
      rewrite Hctx, !loggedAuthorization_app, !loggedAuthorization_received.
      reflexivity.
    + cbn [snd]. rewrite added_extend.
      unfold coffeePreamble, simpleGreetingLeg.
      rewrite Hctx, !loggedAuthorization_app, !loggedAuthorization_received.
      reflexivity.
Qed.

End Endpoint.

(** ** Closed instances of the further properties *)

Lemma leaf_flows_run_with_bearer_witness :
  GetHeaders (WithHeaders serverContext (Some bearerHeaders)) = Some bearerHeaders
  /\ Get (Some bearerHeaders) "Authorization" = "Bearer " +:+ "abc"
  /\ fst (@simpleGreetingFlow friendly
            (WithHeaders serverContext (Some bearerHeaders)) (Some samInput) None
            (startState _ _))
     = Ok "Hi Sam, try a latte.".
Proof.
  assert (Hauth : Get (Some bearerHeaders) "Authorization" = "Bearer " +:+ "abc")
    by (vm_compute; reflexivity).
  destruct (@leaf_flows_run_with_bearer friendly
              (WithHeaders serverContext (Some bearerHeaders)) bearerHeaders "abc"
              (Some samInput) None (Some samHistoryInput) (startState _ _)
              eq_refl Hauth) as [H1 _].
  split; [reflexivity|]. split; [exact Hauth|]. rewrite H1. reflexivity.
Defined.

Lemma leaf_flows_reject_without_bearer_witness :
  GetHeaders (WithHeaders serverContext (Some basicHeaders)) = Some basicHeaders
  /\ HasPrefix (Get (Some basicHeaders) "Authorization") "Bearer " = false
  /\ fst (@greetingWithHistoryFlow friendly
            (WithHeaders serverContext (Some basicHeaders)) (Some samHistoryInput)
            (startState _ _))
     = Err "invalid authorization header".
Proof.
  assert (Hprefix : HasPrefix (Get (Some basicHeaders) "Authorization") "Bearer "
                    = false) by (vm_compute; reflexivity).
  destruct (@leaf_flows_reject_without_bearer friendly
              (WithHeaders serverContext (Some basicHeaders)) basicHeaders
              (Some samInput) None (Some samHistoryInput) (startState _ _)
              eq_refl Hprefix) as (_ & H2 & _).
  split; [reflexivity|]. split; [exact Hprefix | exact H2].
Defined.


Lemma refused_body_answers_400_witness :
  let r := post 8 "{invalid" (Some bearerHeaders) in
  0 < ContentLength r
  /\ @json_Decode friendly (Body r)
     = Some "invalid character 'i' looking for beginning of object key string"
  /\ wStatus (fst (@handler friendly freshWriter r (startState _ _))) = Some 400.
Proof.
  cbv zeta. split; [reflexivity|]. split; [reflexivity|].
  pose proof (@refused_body_answers_400 friendly
                (post 8 "{invalid" (Some bearerHeaders)) (startState _ _)
                "invalid character 'i' looking for beginning of object key string"
                eq_refl eq_refl eq_refl) as H.
  destruct (@handler friendly freshWriter (post 8 "{invalid" (Some bearerHeaders))
              (startState _ _)) as [w st'].
  exact (proj1 H).
Defined.

Lemma authorized_post_answers_replies_witness :
  let r := post 0 "" (Some bearerHeaders) in
  @decodeBody friendly r = None
  /\ authorizationRejected (RHeader r) = false
  /\ wStatus (fst (@handler friendly freshWriter r (startState _ _))) = Some 200.
Proof.
  cbv zeta. split; [reflexivity|]. split; [reflexivity|].
  pose proof (@authorized_post_answers_replies friendly
                (post 0 "" (Some bearerHeaders))
                "Hi Sam, try a latte." "Welcome back Sam, a mocha today?" tt tt
                (startState _ _) eq_refl eq_refl eq_refl eq_refl eq_refl) as H.
  destruct (@handler friendly freshWriter (post 0 "" (Some bearerHeaders))
              (startState _ _)) as [w st'].
  exact (proj1 H).
Defined.

Lemma prompt_failure_answers_200_witness :
  let E := scripted (Err "quota exceeded") (Ok "unused") in
  let r := post 0 "" (Some bearerHeaders) in
  @decodeBody E r = None
  /\ authorizationRejected (RHeader r) = false
  /\ wStatus (fst (@handler E freshWriter r (startState _ _))) = Some 200.
Proof.
  cbv zeta. split; [reflexivity|]. split; [reflexivity|].
  pose proof (@prompt_failure_answers_200
                (scripted (Err "quota exceeded") (Ok "unused"))
                (post 0 "" (Some bearerHeaders)) "quota exceeded"
                (startState _ _) eq_refl eq_refl eq_refl
                (or_introl (ex_intro _ tt eq_refl))) as H.
  destruct (@handler (scripted (Err "quota exceeded") (Ok "unused")) freshWriter
              (post 0 "" (Some bearerHeaders)) (startState _ _)) as [w st'].
  exact (proj1 H).
Defined.

Lemma flows_log_authorization_value_witness :
  GetHeaders (WithHeaders serverContext (Some bearerHeaders)) = Some bearerHeaders
  /\ loggedAuthorization
       (trace (snd (@coffeeFlow friendly
                      (WithHeaders serverContext (Some bearerHeaders)) tt
                      (startState _ _))))
     = ["Bearer abc"; "Bearer abc"; "Bearer abc"].
Proof.
  split; [reflexivity|].
  pose proof (@flows_log_authorization_value friendly
                (WithHeaders serverContext (Some bearerHeaders)) bearerHeaders tt
                (startState _ _) eq_refl) as H.
  vm_compute in H. vm_compute. exact H.
Defined.
